(** * A Cloud Function that triggers an Airflow DAG run

    Shallow embedding of [main.py]: the authenticated request helper
    [make_composer2_web_server_request], the REST call [trigger_dag] and the
    HTTP entry point [trigger_dag_gcf], together with the small parts of
    the libraries they call ([requests], [flask], [google.auth]).

    Python values are an inductive type [pyobj]; dictionaries are stdpp
    finite maps keyed by strings.  Exceptions and the outbound network call
    are made explicit by a state-and-error monad [M]: the state is the log
    of the requests issued through the authorized session, the answers of
    the remote web server are given by an oracle [net]. *)

From Stdlib Require Import ZArith String Ascii List Lia.
From Stdlib Require Import SpecFloat.
From stdpp Require Import base strings gmap pretty.

Set Default Proof Using "Type".
Set Warnings "-register-all".
Local Open Scope Z_scope.

(** ** Python values *)

(** The values that reach this program: what [json.loads] produces, the
    strings of the query string, and the keyword arguments of a request. *)
Inductive pyobj : Type :=
  | PyNone
  | PyBool (b : bool)
  | PyInt (n : Z)
  | PyFloat (x : spec_float)
  | PyStr (s : string)
  | PyList (l : list pyobj)
  | PyDict (d : gmap string pyobj).

(** [bool(o)], the test of an [if o:] statement. *)
Definition truthy (o : pyobj) : bool :=
  match o with
  | PyNone => false
  | PyBool b => b
  | PyInt n => negb (n =? 0)
  | PyFloat (S754_zero _) => false
  | PyFloat _ => true
  | PyStr s => negb (String.eqb s EmptyString)
  | PyList l => match l with [] => false | _ :: _ => true end
  | PyDict d => negb (bool_decide (d = ∅))
  end.

(** [type(o).__name__] *)
Definition type_name (o : pyobj) : string :=
  match o with
  | PyNone => "NoneType"
  | PyBool _ => "bool"
  | PyInt _ => "int"
  | PyFloat _ => "float"
  | PyStr _ => "str"
  | PyList _ => "list"
  | PyDict _ => "dict"
  end.

(** ** Exceptions *)

(** Instances of Python's [Exception], the class the handler's
    [except Exception] clause matches. *)
Inductive Exception : Type :=
  | HTTPError (msg : string)                 (* requests.HTTPError *)
  | AttributeError (msg : string)
  | RecursionError (msg : string)
  | BadRequest                               (* werkzeug.exceptions *)
  | UnsupportedMediaType
  | OtherException (cls : string) (msg : string).
      (* raised by the transport: requests.ConnectionError,
         requests.Timeout, google.auth.exceptions.RefreshError, ... *)

(** [str(e)] *)
Definition str (e : Exception) : string :=
  match e with
  | HTTPError msg => msg
  | AttributeError msg => msg
  | RecursionError msg => msg
  | BadRequest =>
      "400 Bad Request: The browser (or proxy) sent a request that this server could not understand."
  | UnsupportedMediaType =>
      "415 Unsupported Media Type: Did not attempt to load JSON data because the request Content-Type was not 'application/json'."
  | OtherException _ msg => msg
  end.

(** A computation that does not touch the network either raises or
    returns. *)
Definition result (A : Type) : Type := (Exception + A)%type.

(** [o.get(key, default)]: only dictionaries have the method. *)
Definition py_get (o : pyobj) (key : string) (dflt : pyobj) : result pyobj :=
  match o with
  | PyDict d => inr (default dflt (d !! key))
  | _ => inl (AttributeError
                ("'" +:+ type_name o +:+ "' object has no attribute 'get'"))
  end.

(** ** The [requests] library *)

Module requests.

(** The attributes of [requests.Response] that the program, or
    [raise_for_status], reads.  [headers] lists the items of the
    response's case-insensitive dictionary in insertion order. *)
Record Response : Type := {
  status_code : Z;
  reason : string;
  url : string;
  headers : list (string * string);
  text : string
}.

(** [Response.raise_for_status]: raises for 4xx and 5xx and for nothing
    else. *)
Definition raise_for_status (self : Response) : result unit :=
  let http_error_msg :=
    if (400 <=? status_code self) && (status_code self <? 500) then
      pretty (status_code self) +:+ " Client Error: " +:+ reason self
        +:+ " for url: " +:+ url self
    else if (500 <=? status_code self) && (status_code self <? 600) then
      pretty (status_code self) +:+ " Server Error: " +:+ reason self
        +:+ " for url: " +:+ url self
    else EmptyString in
  if String.eqb http_error_msg EmptyString then inr tt
  else inl (HTTPError http_error_msg).

(** *** How an f-string prints [response.headers]

    [CaseInsensitiveDict.__repr__] is [str(dict(self.items()))]; the
    characters of a string are read as code points below 256. *)
Definition hex_digit (n : N) : ascii :=
  default "0"%char (String.get (N.to_nat n) "0123456789abcdef").

Definition isprintable (n : N) : bool :=
  ((32 <=? n) && (n <? 127) || (161 <=? n) && negb (n =? 173))%N.

Definition dquote : ascii := ascii_of_N 34.
Definition squote : ascii := ascii_of_N 39.
Definition backslash : ascii := ascii_of_N 92.

Definition repr_char (quote c : ascii) : string :=
  let n := N_of_ascii c in
  if Ascii.eqb c quote || Ascii.eqb c backslash then
    String backslash (String c EmptyString)
  else if (n =? 9)%N then String backslash "t"
  else if (n =? 10)%N then String backslash "n"
  else if (n =? 13)%N then String backslash "r"
  else if isprintable n then String c EmptyString
  else String backslash
         (String "x" (String (hex_digit (n / 16))
                             (String (hex_digit (n mod 16)) EmptyString))).

Fixpoint has_char (c : ascii) (s : string) : bool :=
  match s with
  | EmptyString => false
  | String c' s' => Ascii.eqb c c' || has_char c s'
  end.

Fixpoint repr_chars (quote : ascii) (s : string) : string :=
  match s with
  | EmptyString => EmptyString
  | String c s' => repr_char quote c +:+ repr_chars quote s'
  end.

(** [repr(s)] for a string *)
Definition repr_str (s : string) : string :=
  let quote :=
    if has_char squote s && negb (has_char dquote s) then dquote
    else squote in
  String quote (repr_chars quote s +:+ String quote EmptyString).

Fixpoint repr_items (items : list (string * string)) : string :=
  match items with
  | [] => EmptyString
  | [(k, v)] => repr_str k +:+ ": " +:+ repr_str v
  | (k, v) :: rest =>
      repr_str k +:+ ": " +:+ repr_str v +:+ ", " +:+ repr_items rest
  end.

(** [str(response.headers)] *)
Definition str_headers (h : list (string * string)) : string :=
  "{" +:+ repr_items h +:+ "}".

End requests.

(** ** The inbound request ([flask.Request]) *)

Module flask.

(** What the framework finds in the request body when asked for JSON.
    [json.loads] fails in two ways: with a [ValueError] (a decode error)
    on text that is not JSON, and with a [RecursionError] on text nested
    deeper than the interpreter's recursion limit, well-formed or not. *)
Inductive Body : Type :=
  | NoJson                     (* no body, or a Content-Type that is not JSON *)
  | Malformed (data : string)  (* [json.loads] raises a [ValueError] on [data] *)
  | TooDeep (data : string) (msg : string)
                               (* [json.loads] raises [RecursionError(msg)] *)
  | Json (j : pyobj).          (* [json.loads] returns [j] *)

Record Request : Type := {
  method : string;
  args : list (string * string);   (* the query string, a MultiDict *)
  body : Body
}.

(** [request.get_json(silent=...)]: [silent] covers the wrong
    Content-Type and the [ValueError] of the parser, nothing else. *)
Definition get_json (silent : bool) (self : Request) : result pyobj :=
  match body self with
  | Json j => inr j
  | NoJson => if silent then inr PyNone else inl UnsupportedMediaType
  | Malformed _ => if silent then inr PyNone else inl BadRequest
  | TooDeep _ msg => inl (RecursionError msg)
  end.

(** [MultiDict.get(key, default)]: the first value stored under [key]. *)
Fixpoint multidict_get (d : list (string * string)) (key : string)
    (dflt : pyobj) : pyobj :=
  match d with
  | [] => dflt
  | (k, v) :: rest =>
      if String.eqb k key then PyStr v else multidict_get rest key dflt
  end.

End flask.

(** ** Outbound requests and the monad of the program *)

(** One call of [AuthorizedSession.request(method, url, **kwargs)]. *)
Record Call : Type := {
  call_method : string;
  call_url : string;
  call_kwargs : gmap string pyobj
}.

(** A computation receives the log of the calls issued so far and gives
    back the extended log together with either the exception it raised or
    the value it returned. *)
Definition M (A : Type) : Type := list Call -> result A * list Call.

Definition ret {A} (a : A) : M A := fun log => (inr a, log).

Definition raise {A} (e : Exception) : M A := fun log => (inl e, log).

Definition bind {A B} (m : M A) (k : A -> M B) : M B :=
  fun log =>
    match m log with
    | (inl e, log') => (inl e, log')
    | (inr a, log') => k a log'
    end.

(** A pure computation that may raise. *)
Definition lift {A} (r : result A) : M A := fun log => (r, log).

(** [try: m except Exception as e: h e] *)
Definition try_except {A} (m : M A) (h : Exception -> M A) : M A :=
  fun log =>
    match m log with
    | (inl e, log') => h e log'
    | (inr a, log') => (inr a, log')
    end.

Declare Scope py_scope.
Delimit Scope py_scope with py.
Notation "x <- m ;; k" := (bind m (fun x => k))
  (at level 100, m at next level, right associativity) : py_scope.
Notation "m1 ;;; m2" := (bind m1 (fun _ => m2))
  (at level 100, right associativity) : py_scope.
Local Open Scope py_scope.

(** What the handler hands back to the framework: a dictionary, or a
    pair of a dictionary and a status code. *)
Inductive View : Type :=
  | ViewDict (d : gmap string pyobj)
  | ViewTuple (d : gmap string pyobj) (status : Z).

(** The status of the HTTP response the framework builds from a view. *)
Definition http_status (v : View) : Z :=
  match v with
  | ViewDict _ => 200
  | ViewTuple _ status => status
  end.

(** ** The program *)

Definition AUTH_SCOPE : string :=
  "https://www.googleapis.com/auth/cloud-platform".

Section main.

(** [AuthorizedSession(CREDENTIALS).request]: the answer of the network to
    a call, a response or an exception of the transport. *)
Variable net : Call -> result requests.Response.

Definition authed_session_request (method url : string)
    (kwargs : gmap string pyobj) : M requests.Response :=
  fun log =>
    let c := {| call_method := method; call_url := url;
                call_kwargs := kwargs |} in
    (net c, log ++ [c]).

Definition make_composer2_web_server_request (url method : string)
    (kwargs : gmap string pyobj) : M requests.Response :=
  (* Set the default timeout, if missing *)
  let kwargs :=
    match kwargs !! "timeout" with
    | None => <["timeout" := PyInt 90]> kwargs
    | Some _ => kwargs
    end in
  authed_session_request method url kwargs.

Definition permission_denied (response : requests.Response) : string :=
  "You do not have a permission to perform this operation. "
  +:+ "Check Airflow RBAC roles for your account."
  +:+ requests.str_headers (requests.headers response) +:+ " / "
  +:+ requests.text response.

Definition trigger_dag (web_server_url dag_id : string) (data : pyobj)
    : M pyobj :=
  let endpoint := "api/v1/dags/" +:+ dag_id +:+ "/dagRuns" in
  let request_url := web_server_url +:+ "/" +:+ endpoint in
  let json_data := PyDict {[ "conf" := data ]} in
  response <- make_composer2_web_server_request
                request_url "POST" {[ "json" := json_data ]} ;;
  if requests.status_code response =? 403 then
    raise (HTTPError (permission_denied response))
  else if negb (requests.status_code response =? 200) then
    lift (requests.raise_for_status response) ;;;
    ret PyNone
  else
    ret (PyStr (requests.text response)).

(** The suite of the handler's [try] statement.  The two branches of the
    source that assign [bucket] and [file_path] give the pair [params]. *)
Definition trigger_dag_gcf_try (request : flask.Request) : M View :=
  params <-
    (if String.eqb (flask.method request) "POST" then
       request_json <- lift (flask.get_json true request) ;;
       if truthy request_json then
         bucket <- lift (py_get request_json "bucket"
                           (PyStr "YOUR-BUCKET-NAME")) ;;
         file_path <- lift (py_get request_json "file"
                              (PyStr "INPUT-PATH-TO-FILE")) ;;
         ret (bucket, file_path)
       else
         ret (PyStr "YOUR-BUCKET-NAME", PyStr "INPUT-PATH-TO-FILE")
     else
       ret (flask.multidict_get (flask.args request) "bucket"
              (PyStr "YOUR-BUCKET-NAME"),
            flask.multidict_get (flask.args request) "file"
              (PyStr "INPUT-PATH-TO-FILE"))) ;;
  let bucket := fst params in
  let file_path := snd params in
  let web_server_url := "YOUR-WEB-SERVER-URL" in
  let dag_id := "gcs_dataflow_bigquery_official" in
  let dag_conf := PyDict {[ "bucket" := bucket; "file" := file_path ]} in
  response_text <- trigger_dag web_server_url dag_id dag_conf ;;
  ret (ViewDict {[ "status" := PyStr "success";
                   "message" := PyStr "DAG triggered successfully";
                   "dag_id" := PyStr dag_id;
                   "dag_conf" := dag_conf;
                   "response" := response_text ]}).

Definition trigger_dag_gcf (request : flask.Request) : M View :=
  try_except (trigger_dag_gcf_try request)
    (fun e =>
       ret (ViewTuple {[ "status" := PyStr "error";
                         "message" := PyStr ("Failed to trigger DAG: "
                                             +:+ str e) ]} 500)).

End main.

(** ** Vocabulary of the statements *)

(** The call [trigger_dag] issues for a web server, a DAG and a
    configuration. *)
Definition dag_run_call (web_server_url dag_id : string) (data : pyobj)
    : Call :=
  {| call_method := "POST";
     call_url := web_server_url +:+ "/" +:+ "api/v1/dags/" +:+ dag_id
                 +:+ "/dagRuns";
     call_kwargs := {[ "timeout" := PyInt 90;
                       "json" := PyDict {[ "conf" := data ]} ]} |}.

(** [s] occurs in [t]. *)
Definition contains (s t : string) : Prop :=
  exists pre post : string, t = pre +:+ s +:+ post.

(** The value of a field of a JSON body, or the default when the body
    has no such field. *)
Definition field_or (j : pyobj) (key : string) (dflt : pyobj) : pyobj :=
  match j with
  | PyDict d => default dflt (d !! key)
  | _ => dflt
  end.

(** The bodies on which the handler's parameter extraction goes through:
    the falsy ones, which it does not inspect, and the objects. *)
Definition extractable (j : pyobj) : bool :=
  match j with
  | PyDict _ => true
  | _ => negb (truthy j)
  end.

(** The outcome of [trigger_dag] as a function of the answer to its one
    call. *)
Definition classify (answer : result requests.Response) : result pyobj :=
  match answer with
  | inl e => inl e
  | inr r =>
      if requests.status_code r =? 403 then
        inl (HTTPError (permission_denied r))
      else if requests.status_code r =? 200 then
        inr (PyStr (requests.text r))
      else
        match requests.raise_for_status r with
        | inl e => inl e
        | inr _ => inr PyNone
        end
  end.

(** The parameters the handler extracts from a request, or the exception
    the extraction raises. *)
Definition params_of (request : flask.Request) : result (pyobj * pyobj) :=
  if String.eqb (flask.method request) "POST" then
    match flask.body request with
    | flask.Json j =>
        if extractable j then
          inr (field_or j "bucket" (PyStr "YOUR-BUCKET-NAME"),
               field_or j "file" (PyStr "INPUT-PATH-TO-FILE"))
        else
          inl (AttributeError
                 ("'" +:+ type_name j +:+ "' object has no attribute 'get'"))
    | flask.TooDeep _ msg => inl (RecursionError msg)
    | flask.NoJson | flask.Malformed _ =>
        inr (PyStr "YOUR-BUCKET-NAME", PyStr "INPUT-PATH-TO-FILE")
    end
  else
    inr (flask.multidict_get (flask.args request) "bucket"
           (PyStr "YOUR-BUCKET-NAME"),
         flask.multidict_get (flask.args request) "file"
           (PyStr "INPUT-PATH-TO-FILE")).

Definition dag_conf_of (params : pyobj * pyobj) : pyobj :=
  PyDict {[ "bucket" := fst params; "file" := snd params ]}.

Definition handler_call (params : pyobj * pyobj) : Call :=
  dag_run_call "YOUR-WEB-SERVER-URL" "gcs_dataflow_bigquery_official"
    (dag_conf_of params).

Definition success_view (dag_conf response_text : pyobj) : View :=
  ViewDict {[ "status" := PyStr "success";
              "message" := PyStr "DAG triggered successfully";
              "dag_id" := PyStr "gcs_dataflow_bigquery_official";
              "dag_conf" := dag_conf;
              "response" := response_text ]}.

Definition error_view (e : Exception) : View :=
  ViewTuple {[ "status" := PyStr "error";
               "message" := PyStr ("Failed to trigger DAG: " +:+ str e) ]}
            500.

(** ** Concrete requests and responses *)

Definition dag_runs_url : string :=
  "YOUR-WEB-SERVER-URL/api/v1/dags/gcs_dataflow_bigquery_official/dagRuns".

Definition response_of (status : Z) (reason text : string)
    : requests.Response :=
  {| requests.status_code := status;
     requests.reason := reason;
     requests.url := dag_runs_url;
     requests.headers := [("Content-Type", "application/json")];
     requests.text := text |}.

Definition ok_200 : requests.Response :=
  response_of 200 "OK" "{'dag_run_id': 'manual'}".
Definition created_201 : requests.Response :=
  response_of 201 "CREATED" "{}".
Definition found_302 : requests.Response :=
  response_of 302 "FOUND" EmptyString.
Definition forbidden_403 : requests.Response :=
  response_of 403 "FORBIDDEN" "Forbidden".
Definition not_found_404 : requests.Response :=
  response_of 404 "NOT FOUND" "DAG not found".

(** A web server that gives the same answer to every call. *)
Definition always (r : requests.Response) : Call -> result requests.Response :=
  fun _ => inr r.

Definition post_request (b : flask.Body) : flask.Request :=
  {| flask.method := "POST"; flask.args := []; flask.body := b |}.

Definition get_request (args : list (string * string)) : flask.Request :=
  {| flask.method := "GET"; flask.args := args; flask.body := flask.NoJson |}.

(** The same request with no JSON body. *)
Definition without_body (request : flask.Request) : flask.Request :=
  {| flask.method := flask.method request;
     flask.args := flask.args request;
     flask.body := flask.NoJson |}.

(** The same request with another query string, or another body. *)
Definition with_args (request : flask.Request) (args : list (string * string))
    : flask.Request :=
  {| flask.method := flask.method request;
     flask.args := args;
     flask.body := flask.body request |}.

Definition with_body (request : flask.Request) (b : flask.Body)
    : flask.Request :=
  {| flask.method := flask.method request;
     flask.args := flask.args request;
     flask.body := b |}.

(** A body of two thousand opening brackets, and what the parser says
    of it. *)
Definition deep_body : flask.Body :=
  flask.TooDeep (string_of_list_ascii (replicate 2000 "["%char))
    "maximum recursion depth exceeded while decoding a JSON array from a unicode string".

(** A web server that cannot be reached. *)
Definition unreachable : Call -> result requests.Response :=
  fun _ => inl (OtherException "ConnectionError" "Connection refused").

(** ** Running the monad *)

Section run.

Variable net : Call -> result requests.Response.

Lemma bind_run {A B} (m : M A) (k : A -> M B) log :
  bind m k log =
    match m log with
    | (inl e, log') => (inl e, log')
    | (inr a, log') => k a log'
    end.
Proof. reflexivity. Qed.

Lemma request_run url method (kwargs : gmap string pyobj) log :
  make_composer2_web_server_request net url method kwargs log =
    (let c := {| call_method := method; call_url := url;
                 call_kwargs := match kwargs !! "timeout" with
                                | None => <["timeout" := PyInt 90]> kwargs
                                | Some _ => kwargs
                                end |} in
     (net c, log ++ [c])).
Proof. reflexivity. Qed.

Lemma trigger_dag_run web_server_url dag_id data log :
  trigger_dag net web_server_url dag_id data log =
    (classify (net (dag_run_call web_server_url dag_id data)),
     log ++ [dag_run_call web_server_url dag_id data]).
Proof.
  unfold trigger_dag. rewrite bind_run, request_run. cbn zeta.
  change (({[ "json" := PyDict {[ "conf" := data ]} ]} : gmap string pyobj)
            !! "timeout") with (@None pyobj).
  fold (dag_run_call web_server_url dag_id data).
  unfold classify.
  destruct (net _) as [e | r]; [reflexivity |].
  destruct (requests.status_code r =? 403); [reflexivity |].
  destruct (requests.status_code r =? 200); cbn; [reflexivity |].
  unfold bind, lift. destruct (requests.raise_for_status r); reflexivity.
Qed.

Lemma truthy_dict_false (d : gmap string pyobj) :
  truthy (PyDict d) = false -> d = ∅.
Proof.
  cbn. intros H. apply negb_false_iff in H.
  by apply bool_decide_eq_true in H.
Qed.

Lemma try_run request log :
  trigger_dag_gcf_try net request log =
    match params_of request with
    | inl e => (inl e, log)
    | inr params =>
        (match classify (net (handler_call params)) with
         | inl e => inl e
         | inr response_text =>
             inr (success_view (dag_conf_of params) response_text)
         end,
         log ++ [handler_call params])
    end.
Proof.
  assert (Hgo : forall params,
    bind (trigger_dag net "YOUR-WEB-SERVER-URL"
            "gcs_dataflow_bigquery_official" (dag_conf_of params))
         (fun response_text =>
            ret (success_view (dag_conf_of params) response_text)) log =
    (match classify (net (handler_call params)) with
     | inl e => inl e
     | inr response_text =>
         inr (success_view (dag_conf_of params) response_text)
     end, log ++ [handler_call params])).
  { intros params. rewrite bind_run, trigger_dag_run.
    fold (handler_call params). by destruct (classify _). }
  unfold trigger_dag_gcf_try, params_of.
  destruct (String.eqb (flask.method request) "POST").
  - unfold flask.get_json.
    destruct (flask.body request) as [ | data | data msg | j ];
      try (exact (Hgo (PyStr "YOUR-BUCKET-NAME", PyStr "INPUT-PATH-TO-FILE")));
      [reflexivity |].
    rewrite bind_run. unfold lift at 1. rewrite bind_run.
    destruct (truthy j) eqn:Htruthy.
    + destruct j; cbn in Htruthy; try discriminate; cbn -[trigger_dag];
        try rewrite Htruthy; cbn -[trigger_dag]; try reflexivity.
      apply (Hgo (_, _)).
    + assert (Hex : extractable j = true).
      { destruct j; cbn in *; try rewrite Htruthy; reflexivity. }
      rewrite Hex.
      assert (Hb : forall key dflt, field_or j key dflt = dflt).
      { intros key dflt. destruct j; try reflexivity.
        apply truthy_dict_false in Htruthy as ->. reflexivity. }
      rewrite !Hb.
      exact (Hgo (PyStr "YOUR-BUCKET-NAME", PyStr "INPUT-PATH-TO-FILE")).
  - apply (Hgo (_, _)).
Qed.

Lemma handler_run request log :
  trigger_dag_gcf net request log =
    match params_of request with
    | inl e => (inr (error_view e), log)
    | inr params =>
        (inr (match classify (net (handler_call params)) with
              | inl e => error_view e
              | inr response_text =>
                  success_view (dag_conf_of params) response_text
              end),
         log ++ [handler_call params])
    end.
Proof.
  unfold trigger_dag_gcf, try_except. rewrite try_run.
  destruct (params_of request) as [e | params]; [reflexivity |].
  by destruct (classify _).
Qed.

End run.

(** ** Auxiliary facts *)

Lemma log_extended_inv (log : list Call) (c c' : Call) :
  log ++ [c] = log ++ [c'] -> c = c'.
Proof. intros H. apply app_inv_head in H. congruence. Qed.

Lemma log_not_extended (log : list Call) (c : Call) : log <> log ++ [c].
Proof.
  intros H. apply (f_equal length) in H.
  rewrite length_app in H. cbn in H. lia.
Qed.

(** When the handler has issued a call, the extraction went through, the
    call is the one for the extracted parameters, and the view is decided
    by the answer. *)
Lemma handler_after_call net request log c :
  snd (trigger_dag_gcf net request log) = log ++ [c] ->
  exists params,
    params_of request = inr params /\ c = handler_call params /\
    fst (trigger_dag_gcf net request log) =
      inr (match classify (net c) with
           | inl e => error_view e
           | inr response_text =>
               success_view (dag_conf_of params) response_text
           end).
Proof.
  rewrite handler_run.
  destruct (params_of request) as [e | params]; cbn; intros H.
  - by apply log_not_extended in H.
  - apply log_extended_inv in H as <-. by exists params.
Qed.

Lemma dag_run_call_inj web_server_url dag_id data web_server_url' dag_id' data' :
  dag_run_call web_server_url dag_id data =
    dag_run_call web_server_url' dag_id' data' ->
  data = data'.
Proof.
  intros H.
  apply (f_equal (fun c => match call_kwargs c !! "json" with
                           | Some (PyDict m) => m !! "conf"
                           | _ => None
                           end)) in H.
  change (Some data = Some data') in H. congruence.
Qed.

Lemma append_nonempty (s t : string) :
  t <> EmptyString -> String.eqb (s +:+ t) EmptyString = false.
Proof.
  intros Ht. destruct s as [| a s]; cbn; [| reflexivity].
  destruct t; [congruence | reflexivity].
Qed.

Lemma raise_for_status_error (r : requests.Response) :
  400 <= requests.status_code r < 600 ->
  requests.raise_for_status r =
    inl (HTTPError
           (pretty (requests.status_code r)
            +:+ (if requests.status_code r <? 500 then " Client Error: "
                 else " Server Error: ")
            +:+ requests.reason r +:+ " for url: " +:+ requests.url r)).
Proof.
  intros [Hlo Hhi]. unfold requests.raise_for_status.
  assert ((400 <=? requests.status_code r) = true) as -> by lia.
  destruct (requests.status_code r <? 500) eqn:H500; cbn [andb].
  - by rewrite append_nonempty.
  - assert ((500 <=? requests.status_code r) = true) as -> by lia.
    assert ((requests.status_code r <? 600) = true) as -> by lia.
    cbn [andb]. by rewrite append_nonempty.
Qed.

Lemma raise_for_status_quiet (r : requests.Response) :
  requests.status_code r < 400 \/ 600 <= requests.status_code r ->
  requests.raise_for_status r = inr tt.
Proof.
  intros H. unfold requests.raise_for_status.
  assert (((400 <=? requests.status_code r)
           && (requests.status_code r <? 500)) = false) as -> by lia.
  assert (((500 <=? requests.status_code r)
           && (requests.status_code r <? 600)) = false) as -> by lia.
  reflexivity.
Qed.

(** ** The model at work *)

Example str_headers_two_items :
  requests.str_headers [("Content-Type", "text/html"); ("Content-Length", "9")]
  = "{'Content-Type': 'text/html', 'Content-Length': '9'}".
Proof. reflexivity. Qed.

Example raise_for_status_503 :
  requests.raise_for_status (response_of 503 "SERVICE UNAVAILABLE" EmptyString)
  = inl (HTTPError ("503 Server Error: SERVICE UNAVAILABLE for url: "
                    +:+ dag_runs_url)).
Proof. reflexivity. Qed.

Example raise_for_status_204 :
  requests.raise_for_status (response_of 204 "NO CONTENT" EmptyString) = inr tt.
Proof. reflexivity. Qed.

Example handler_on_query_string :
  trigger_dag_gcf (always ok_200) (get_request [("bucket", "b1")]) [] =
    (inr (success_view
            (PyDict {[ "bucket" := PyStr "b1";
                       "file" := PyStr "INPUT-PATH-TO-FILE" ]})
            (PyStr "{'dag_run_id': 'manual'}")),
     [dag_run_call "YOUR-WEB-SERVER-URL" "gcs_dataflow_bigquery_official"
        (PyDict {[ "bucket" := PyStr "b1";
                   "file" := PyStr "INPUT-PATH-TO-FILE" ]})]).
Proof. reflexivity. Qed.

Example handler_on_transport_failure :
  fst (trigger_dag_gcf
         (fun _ => inl (OtherException "ConnectionError" "Connection refused"))
         (get_request []) []) =
    inr (error_view (OtherException "ConnectionError" "Connection refused")).
Proof. reflexivity. Qed.

Example handler_on_not_found :
  fst (trigger_dag_gcf (always not_found_404) (get_request []) []) =
    inr (ViewTuple
           {[ "status" := PyStr "error";
              "message" :=
                PyStr ("Failed to trigger DAG: 404 Client Error: NOT FOUND for url: "
                       +:+ dag_runs_url) ]}
           500).
Proof. reflexivity. Qed.

(** ** The run trigger *)

(** C6: for every base URL, DAG identifier and configuration,
    [trigger_dag] issues exactly one call; it is a POST to the base URL
    joined by a slash with [api/v1/dags/<dag_id>/dagRuns], and its JSON
    body is the configuration under the single key [conf]. *)
Theorem trigger_dag_issues_one_post net web_server_url dag_id data log :
  exists c : Call,
    snd (trigger_dag net web_server_url dag_id data log) = log ++ [c] /\
    call_method c = "POST" /\
    call_url c =
      web_server_url +:+ "/" +:+ "api/v1/dags/" +:+ dag_id +:+ "/dagRuns" /\
    call_kwargs c !! "json" = Some (PyDict {[ "conf" := data ]}).
Proof.
  exists (dag_run_call web_server_url dag_id data).
  rewrite trigger_dag_run. repeat split.
Qed.

(** C8: when the caller passes no [timeout] keyword, the request goes
    out with [timeout] 90 added to the keywords; when the caller passes
    one, the keywords go out unchanged. *)
Theorem default_timeout net url method (kwargs : gmap string pyobj) log :
  (kwargs !! "timeout" = None ->
   let c := {| call_method := method; call_url := url;
               call_kwargs := <["timeout" := PyInt 90]> kwargs |} in
   call_kwargs c !! "timeout" = Some (PyInt 90) /\
   make_composer2_web_server_request net url method kwargs log =
     (net c, log ++ [c])) /\
  (forall t, kwargs !! "timeout" = Some t ->
   let c := {| call_method := method; call_url := url;
               call_kwargs := kwargs |} in
   call_kwargs c !! "timeout" = Some t /\
   make_composer2_web_server_request net url method kwargs log =
     (net c, log ++ [c])).
Proof.
  split.
  - intros Hnone c. split; [apply lookup_insert_eq |].
    rewrite request_run, Hnone. reflexivity.
  - intros t Hsome c. split; [exact Hsome |].
    rewrite request_run, Hsome. reflexivity.
Qed.

Lemma default_timeout_witness :
  (snd (make_composer2_web_server_request (always ok_200) dag_runs_url "GET"
          ∅ []) =
     [{| call_method := "GET"; call_url := dag_runs_url;
         call_kwargs := {[ "timeout" := PyInt 90 ]} |}]) /\
  (snd (make_composer2_web_server_request (always ok_200) dag_runs_url "GET"
          {[ "timeout" := PyNone ]} []) =
     [{| call_method := "GET"; call_url := dag_runs_url;
         call_kwargs := {[ "timeout" := PyNone ]} |}]).
Proof.
  split.
  - exact (f_equal snd
             (proj2 (proj1 (default_timeout (always ok_200) dag_runs_url
                              "GET" ∅ []) eq_refl))).
  - exact (f_equal snd
             (proj2 (proj2 (default_timeout (always ok_200) dag_runs_url
                              "GET" {[ "timeout" := PyNone ]} [])
                       PyNone eq_refl))).
Defined.

(** C1, as amended: for every answer whose status lies in 400..599 and is
    not 403, [trigger_dag] raises the [HTTPError] of [raise_for_status],
    whose text names the status code and the reason phrase. *)
Theorem trigger_dag_raises_for_error_status
    net web_server_url dag_id data log (r : requests.Response) :
  net (dag_run_call web_server_url dag_id data) = inr r ->
  400 <= requests.status_code r < 600 ->
  requests.status_code r <> 403 ->
  fst (trigger_dag net web_server_url dag_id data log) =
    inl (HTTPError
           (pretty (requests.status_code r)
            +:+ (if requests.status_code r <? 500 then " Client Error: "
                 else " Server Error: ")
            +:+ requests.reason r +:+ " for url: " +:+ requests.url r)).
Proof.
  intros Hnet Hrange H403. rewrite trigger_dag_run. cbn [fst].
  rewrite Hnet. unfold classify.
  assert ((requests.status_code r =? 403) = false) as -> by lia.
  assert ((requests.status_code r =? 200) = false) as -> by lia.
  by rewrite raise_for_status_error.
Qed.

Lemma trigger_dag_raises_for_error_status_witness :
  fst (trigger_dag (always not_found_404) "YOUR-WEB-SERVER-URL"
         "gcs_dataflow_bigquery_official" (PyDict ∅) []) =
    inl (HTTPError
           ("404 Client Error: NOT FOUND for url: " +:+ dag_runs_url)).
Proof.
  apply (trigger_dag_raises_for_error_status (always not_found_404)
           "YOUR-WEB-SERVER-URL" "gcs_dataflow_bigquery_official"
           (PyDict ∅) [] not_found_404).
  - reflexivity.
  - cbn. lia.
  - cbn. lia.
Defined.

(** C1 as stated fails: the answer 201 is neither 200 nor 403, and
    [trigger_dag] raises nothing on it; it returns [None]. *)
Lemma trigger_dag_created_no_error :
  requests.status_code created_201 <> 200 /\
  requests.status_code created_201 <> 403 /\
  fst (trigger_dag (always created_201) "YOUR-WEB-SERVER-URL"
         "gcs_dataflow_bigquery_official" (PyDict ∅) []) = inr PyNone /\
  forall e,
    fst (trigger_dag (always created_201) "YOUR-WEB-SERVER-URL"
           "gcs_dataflow_bigquery_official" (PyDict ∅) []) <> inl e.
Proof.
  assert (Hrun : fst (trigger_dag (always created_201) "YOUR-WEB-SERVER-URL"
                        "gcs_dataflow_bigquery_official" (PyDict ∅) [])
                 = inr PyNone) by reflexivity.
  split; [cbn; lia |]. split; [cbn; lia |]. split; [exact Hrun |].
  intros e. rewrite Hrun. discriminate.
Qed.

(** C10: for every answer whose status lies in 200..399 and is not 200,
    [trigger_dag] raises nothing and returns [None], and the handler that
    received this answer returns the success dictionary with [response]
    set to [None] (JSON [null]). *)
Theorem non_error_status_gives_null net (r : requests.Response) :
  200 <= requests.status_code r < 400 ->
  requests.status_code r <> 200 ->
  (forall web_server_url dag_id data log,
     net (dag_run_call web_server_url dag_id data) = inr r ->
     fst (trigger_dag net web_server_url dag_id data log) = inr PyNone) /\
  (forall request log c,
     snd (trigger_dag_gcf net request log) = log ++ [c] ->
     net c = inr r ->
     exists dag_conf,
       c = dag_run_call "YOUR-WEB-SERVER-URL"
             "gcs_dataflow_bigquery_official" dag_conf /\
       fst (trigger_dag_gcf net request log) =
         inr (ViewDict {[ "status" := PyStr "success";
                          "message" := PyStr "DAG triggered successfully";
                          "dag_id" := PyStr "gcs_dataflow_bigquery_official";
                          "dag_conf" := dag_conf;
                          "response" := PyNone ]})).
Proof.
  intros Hrange H200.
  assert (Hclass : classify (inr r) = inr PyNone).
  { unfold classify.
    assert ((requests.status_code r =? 403) = false) as -> by lia.
    assert ((requests.status_code r =? 200) = false) as -> by lia.
    rewrite raise_for_status_quiet by lia. reflexivity. }
  split.
  - intros web_server_url dag_id data log Hnet.
    rewrite trigger_dag_run. cbn [fst]. by rewrite Hnet.
  - intros request log c Hlog Hnet.
    destruct (handler_after_call _ _ _ _ Hlog) as (params & _ & -> & Hview).
    exists (dag_conf_of params). split; [reflexivity |].
    rewrite Hview, Hnet, Hclass. reflexivity.
Qed.

Lemma non_error_status_gives_null_witness :
  fst (trigger_dag (always found_302) "YOUR-WEB-SERVER-URL"
         "gcs_dataflow_bigquery_official" (PyDict ∅) []) = inr PyNone /\
  exists dag_conf,
    fst (trigger_dag_gcf (always created_201) (get_request []) []) =
      inr (ViewDict {[ "status" := PyStr "success";
                       "message" := PyStr "DAG triggered successfully";
                       "dag_id" := PyStr "gcs_dataflow_bigquery_official";
                       "dag_conf" := dag_conf;
                       "response" := PyNone ]}).
Proof.
  split.
  - apply (proj1 (non_error_status_gives_null (always found_302) found_302
                    ltac:(cbn; lia) ltac:(cbn; lia))).
    reflexivity.
  - destruct (proj2 (non_error_status_gives_null (always created_201)
                       created_201 ltac:(cbn; lia) ltac:(cbn; lia))
                (get_request []) []
                (handler_call (PyStr "YOUR-BUCKET-NAME",
                               PyStr "INPUT-PATH-TO-FILE"))
                eq_refl eq_refl) as (dag_conf & _ & Hview).
    by exists dag_conf.
Defined.

(** C3: for every answer with status 200, [trigger_dag] returns the body
    text of the answer unchanged, and the handler that received this
    answer returns, with status 200, the success dictionary whose
    [response] is that text and which carries [dag_id] and [dag_conf]. *)
Theorem success_echoes_body net (r : requests.Response) :
  requests.status_code r = 200 ->
  (forall web_server_url dag_id data log,
     net (dag_run_call web_server_url dag_id data) = inr r ->
     fst (trigger_dag net web_server_url dag_id data log) =
       inr (PyStr (requests.text r))) /\
  (forall request log c,
     snd (trigger_dag_gcf net request log) = log ++ [c] ->
     net c = inr r ->
     exists dag_conf,
       let v :=
         ViewDict {[ "status" := PyStr "success";
                     "message" := PyStr "DAG triggered successfully";
                     "dag_id" := PyStr "gcs_dataflow_bigquery_official";
                     "dag_conf" := dag_conf;
                     "response" := PyStr (requests.text r) ]} in
       c = dag_run_call "YOUR-WEB-SERVER-URL"
             "gcs_dataflow_bigquery_official" dag_conf /\
       fst (trigger_dag_gcf net request log) = inr v /\
       http_status v = 200).
Proof.
  intros H200.
  assert (Hclass : classify (inr r) = inr (PyStr (requests.text r))).
  { unfold classify. rewrite H200. reflexivity. }
  split.
  - intros web_server_url dag_id data log Hnet.
    rewrite trigger_dag_run. cbn [fst]. by rewrite Hnet.
  - intros request log c Hlog Hnet.
    destruct (handler_after_call _ _ _ _ Hlog) as (params & _ & -> & Hview).
    exists (dag_conf_of params).
    split; [reflexivity |]. split; [| reflexivity].
    by rewrite Hview, Hnet, Hclass.
Qed.

Lemma success_echoes_body_witness :
  fst (trigger_dag_gcf (always ok_200)
         (get_request [("bucket", "b1"); ("file", "f1")]) []) =
    inr (ViewDict {[ "status" := PyStr "success";
                     "message" := PyStr "DAG triggered successfully";
                     "dag_id" := PyStr "gcs_dataflow_bigquery_official";
                     "dag_conf" := PyDict {[ "bucket" := PyStr "b1";
                                             "file" := PyStr "f1" ]};
                     "response" := PyStr "{'dag_run_id': 'manual'}" ]}).
Proof.
  destruct (proj2 (success_echoes_body (always ok_200) ok_200 eq_refl)
              (get_request [("bucket", "b1"); ("file", "f1")]) []
              (handler_call (PyStr "b1", PyStr "f1")) eq_refl eq_refl)
    as (dag_conf & Hcall & Hfst & _).
  apply dag_run_call_inj in Hcall as <-. exact Hfst.
Defined.

(** C4: for every answer with status 403, [trigger_dag] raises an error
    whose text is the fixed explanation about permissions followed by the
    headers and the body text of the answer, and the handler that
    received this answer returns, with status 500, an error dictionary
    whose message contains the word [permission]. *)
Theorem forbidden_reports_permission net (r : requests.Response) :
  requests.status_code r = 403 ->
  let error_text :=
    "You do not have a permission to perform this operation. "
    +:+ "Check Airflow RBAC roles for your account."
    +:+ requests.str_headers (requests.headers r) +:+ " / "
    +:+ requests.text r in
  (forall web_server_url dag_id data log,
     net (dag_run_call web_server_url dag_id data) = inr r ->
     fst (trigger_dag net web_server_url dag_id data log) =
       inl (HTTPError error_text)) /\
  (forall request log c,
     snd (trigger_dag_gcf net request log) = log ++ [c] ->
     net c = inr r ->
     let message := "Failed to trigger DAG: " +:+ error_text in
     let v := ViewTuple {[ "status" := PyStr "error";
                           "message" := PyStr message ]} 500 in
     fst (trigger_dag_gcf net request log) = inr v /\
     http_status v = 500 /\
     contains "permission" message).
Proof.
  intros H403 error_text.
  assert (Hclass : classify (inr r) = inl (HTTPError error_text)).
  { unfold classify. rewrite H403. reflexivity. }
  split.
  - intros web_server_url dag_id data log Hnet.
    rewrite trigger_dag_run. cbn [fst]. by rewrite Hnet.
  - intros request log c Hlog Hnet message v.
    destruct (handler_after_call _ _ _ _ Hlog) as (params & _ & -> & Hview).
    split; [by rewrite Hview, Hnet, Hclass |].
    split; [reflexivity |].
    exists "Failed to trigger DAG: You do not have a ",
      (" to perform this operation. "
       +:+ "Check Airflow RBAC roles for your account."
       +:+ requests.str_headers (requests.headers r) +:+ " / "
       +:+ requests.text r).
    reflexivity.
Qed.

Lemma forbidden_reports_permission_witness :
  fst (trigger_dag_gcf (always forbidden_403)
         (post_request (flask.Json (PyDict {[ "bucket" := PyStr "b1" ]})))
         []) =
    inr (ViewTuple
           {[ "status" := PyStr "error";
              "message" :=
                PyStr ("Failed to trigger DAG: You do not have a permission to perform this operation. Check Airflow RBAC roles for your account.{'Content-Type': 'application/json'} / Forbidden") ]}
           500).
Proof.
  exact (proj1 (proj2 (forbidden_reports_permission (always forbidden_403)
                         forbidden_403 eq_refl)
                  (post_request
                     (flask.Json (PyDict {[ "bucket" := PyStr "b1" ]})))
                  []
                  (handler_call (PyStr "b1", PyStr "INPUT-PATH-TO-FILE"))
                  eq_refl eq_refl)).
Defined.

(** ** The request handler *)

(** C5: whatever exception the suite of the handler's [try] raises, in
    the extraction of the parameters or in the trigger call, the handler
    returns the pair of the error dictionary, whose message is
    [Failed to trigger DAG: ] followed by the text of the exception, and
    500; the handler itself raises nothing. *)
Theorem handler_catches_everything net request log :
  (forall e log',
     trigger_dag_gcf_try net request log = (inl e, log') ->
     trigger_dag_gcf net request log =
       (inr (ViewTuple
               {[ "status" := PyStr "error";
                  "message" := PyStr ("Failed to trigger DAG: " +:+ str e) ]}
               500),
        log')) /\
  (exists v, fst (trigger_dag_gcf net request log) = inr v).
Proof.
  split.
  - intros e log' Htry. unfold trigger_dag_gcf, try_except.
    rewrite Htry. reflexivity.
  - rewrite handler_run. destruct (params_of request); cbn; eauto.
Qed.

Lemma handler_catches_everything_witness :
  trigger_dag_gcf (always ok_200)
    (post_request (flask.Json (PyList [PyStr "b1"]))) [] =
    (inr (ViewTuple
            {[ "status" := PyStr "error";
               "message" :=
                 PyStr "Failed to trigger DAG: 'list' object has no attribute 'get'" ]}
            500),
     []).
Proof.
  exact (proj1 (handler_catches_everything (always ok_200)
                  (post_request (flask.Json (PyList [PyStr "b1"]))) [])
           (AttributeError "'list' object has no attribute 'get'") []
           eq_refl).
Defined.

(** C2, as amended: on a POST request whose JSON body parses to an
    object, or to a falsy value, the handler issues the call whose
    configuration is [bucket] and [file] of the body, each replaced by
    its placeholder when absent; on a request that is not a POST the two
    values are read from the query string, with the same placeholders. *)
Theorem handler_payload net request log :
  (flask.method request = "POST" ->
   forall j,
     flask.body request = flask.Json j ->
     (exists d, j = PyDict d) \/ truthy j = false ->
     snd (trigger_dag_gcf net request log) =
       log ++ [dag_run_call "YOUR-WEB-SERVER-URL"
                 "gcs_dataflow_bigquery_official"
                 (PyDict {[ "bucket" :=
                              field_or j "bucket" (PyStr "YOUR-BUCKET-NAME");
                            "file" :=
                              field_or j "file"
                                (PyStr "INPUT-PATH-TO-FILE") ]})]) /\
  (flask.method request <> "POST" ->
   snd (trigger_dag_gcf net request log) =
     log ++ [dag_run_call "YOUR-WEB-SERVER-URL"
               "gcs_dataflow_bigquery_official"
               (PyDict {[ "bucket" :=
                            flask.multidict_get (flask.args request)
                              "bucket" (PyStr "YOUR-BUCKET-NAME");
                          "file" :=
                            flask.multidict_get (flask.args request)
                              "file" (PyStr "INPUT-PATH-TO-FILE") ]})]).
Proof.
  rewrite handler_run. unfold params_of. split.
  - intros ->%String.eqb_eq j -> Hj.
    assert (extractable j = true) as ->; [| reflexivity].
    destruct Hj as [[d ->] | Hfalsy]; [reflexivity |].
    destruct j; cbn in *; try rewrite Hfalsy; reflexivity.
  - intros ->%String.eqb_neq. reflexivity.
Qed.

Lemma handler_payload_witness :
  snd (trigger_dag_gcf (always ok_200)
         (post_request (flask.Json (PyDict {[ "bucket" := PyStr "b1";
                                              "file" := PyStr "f1" ]})))
         []) =
    [dag_run_call "YOUR-WEB-SERVER-URL" "gcs_dataflow_bigquery_official"
       (PyDict {[ "bucket" := PyStr "b1"; "file" := PyStr "f1" ]})] /\
  snd (trigger_dag_gcf (always ok_200) (get_request [("file", "f1")]) []) =
    [dag_run_call "YOUR-WEB-SERVER-URL" "gcs_dataflow_bigquery_official"
       (PyDict {[ "bucket" := PyStr "YOUR-BUCKET-NAME";
                  "file" := PyStr "f1" ]})].
Proof.
  split.
  - refine (proj1 (handler_payload (always ok_200)
                     (post_request
                        (flask.Json
                           (PyDict {[ "bucket" := PyStr "b1";
                                      "file" := PyStr "f1" ]})))
                     []) eq_refl _ eq_refl _).
    left. by eexists.
  - refine (proj2 (handler_payload (always ok_200)
                     (get_request [("file", "f1")]) []) _).
    discriminate.
Defined.

(** C2 as stated fails: a list is a valid, non-empty JSON body without
    the two fields, yet on it the handler passes no configuration to
    [trigger_dag], placeholders or other: [.get] raises, no call is
    issued, and the answer is the error dictionary with 500. *)
Lemma handler_payload_list_body :
  truthy (PyList [PyStr "b1"]) = true /\
  snd (trigger_dag_gcf (always ok_200)
         (post_request (flask.Json (PyList [PyStr "b1"]))) []) = [] /\
  snd (trigger_dag_gcf (always ok_200)
         (post_request (flask.Json (PyList [PyStr "b1"]))) []) <>
    [dag_run_call "YOUR-WEB-SERVER-URL" "gcs_dataflow_bigquery_official"
       (PyDict {[ "bucket" := PyStr "YOUR-BUCKET-NAME";
                  "file" := PyStr "INPUT-PATH-TO-FILE" ]})] /\
  fst (trigger_dag_gcf (always ok_200)
         (post_request (flask.Json (PyList [PyStr "b1"]))) []) =
    inr (ViewTuple
           {[ "status" := PyStr "error";
              "message" :=
                PyStr "Failed to trigger DAG: 'list' object has no attribute 'get'" ]}
           500).
Proof.
  split; [reflexivity |]. split; [reflexivity |].
  split; [discriminate | reflexivity].
Qed.

(** C7, as amended: on a POST request whose body the parser rejects with
    a [ValueError], reading the body raises nothing, and the handler does
    what it does on the same request without a body: it issues the call
    with both placeholders. *)
Theorem malformed_json_falls_through net request data log :
  flask.method request = "POST" ->
  flask.body request = flask.Malformed data ->
  flask.get_json true request = inr PyNone /\
  trigger_dag_gcf net request log =
    trigger_dag_gcf net (without_body request) log /\
  snd (trigger_dag_gcf net request log) =
    log ++ [dag_run_call "YOUR-WEB-SERVER-URL"
              "gcs_dataflow_bigquery_official"
              (PyDict {[ "bucket" := PyStr "YOUR-BUCKET-NAME";
                         "file" := PyStr "INPUT-PATH-TO-FILE" ]})].
Proof.
  intros Hpost Hbody. split; [| split].
  - unfold flask.get_json. by rewrite Hbody.
  - rewrite !handler_run. unfold params_of, without_body. cbn.
    rewrite Hpost, Hbody. reflexivity.
  - rewrite handler_run. unfold params_of.
    rewrite Hpost, Hbody. reflexivity.
Qed.

Lemma malformed_json_falls_through_witness :
  snd (trigger_dag_gcf (always ok_200)
         (post_request (flask.Malformed "{bucket: ")) []) =
    [dag_run_call "YOUR-WEB-SERVER-URL" "gcs_dataflow_bigquery_official"
       (PyDict {[ "bucket" := PyStr "YOUR-BUCKET-NAME";
                  "file" := PyStr "INPUT-PATH-TO-FILE" ]})].
Proof.
  exact (proj2 (proj2 (malformed_json_falls_through (always ok_200)
                         (post_request (flask.Malformed "{bucket: "))
                         "{bucket: " [] eq_refl eq_refl))).
Defined.

(** C7 as stated fails: two thousand opening brackets are not valid
    JSON, yet the parser leaves them with a [RecursionError], which
    [silent=True] does not cover: reading the body raises, the handler
    takes its error branch and issues no call, unlike the same request
    without a body. *)
Lemma deep_nesting_is_not_silent :
  flask.get_json true (post_request deep_body) =
    inl (RecursionError
           "maximum recursion depth exceeded while decoding a JSON array from a unicode string") /\
  trigger_dag_gcf (always ok_200) (post_request deep_body) [] =
    (inr (ViewTuple
            {[ "status" := PyStr "error";
               "message" :=
                 PyStr "Failed to trigger DAG: maximum recursion depth exceeded while decoding a JSON array from a unicode string" ]}
            500),
     []) /\
  snd (trigger_dag_gcf (always ok_200)
         (without_body (post_request deep_body)) []) =
    [dag_run_call "YOUR-WEB-SERVER-URL" "gcs_dataflow_bigquery_official"
       (PyDict {[ "bucket" := PyStr "YOUR-BUCKET-NAME";
                  "file" := PyStr "INPUT-PATH-TO-FILE" ]})] /\
  trigger_dag_gcf (always ok_200) (post_request deep_body) [] <>
    trigger_dag_gcf (always ok_200) (without_body (post_request deep_body)) [].
Proof.
  split; [reflexivity |]. split; [reflexivity |]. split; [reflexivity |].
  rewrite !handler_run. cbn. discriminate.
Qed.

(** C9: on a POST request whose body parses to a falsy JSON value, the
    empty object among them, the handler does what it does on the same
    request without a body: it issues the call with both placeholders. *)
Theorem falsy_body_uses_defaults net request j log :
  flask.method request = "POST" ->
  flask.body request = flask.Json j ->
  truthy j = false ->
  trigger_dag_gcf net request log =
    trigger_dag_gcf net (without_body request) log /\
  snd (trigger_dag_gcf net request log) =
    log ++ [dag_run_call "YOUR-WEB-SERVER-URL"
              "gcs_dataflow_bigquery_official"
              (PyDict {[ "bucket" := PyStr "YOUR-BUCKET-NAME";
                         "file" := PyStr "INPUT-PATH-TO-FILE" ]})].
Proof.
  intros Hpost Hbody Hfalsy.
  assert (Hparams : params_of request =
            inr (PyStr "YOUR-BUCKET-NAME", PyStr "INPUT-PATH-TO-FILE")).
  { unfold params_of. rewrite Hpost, Hbody. cbn.
    assert (extractable j = true) as ->.
    { destruct j; cbn in *; try rewrite Hfalsy; reflexivity. }
    assert (Hfield : forall key dflt, field_or j key dflt = dflt).
    { intros key dflt. destruct j; try reflexivity.
      apply truthy_dict_false in Hfalsy as ->. reflexivity. }
    by rewrite !Hfield. }
  split.
  - rewrite !handler_run, Hparams. unfold params_of, without_body. cbn.
    rewrite Hpost. reflexivity.
  - rewrite handler_run, Hparams. reflexivity.
Qed.

Lemma falsy_body_uses_defaults_witness :
  snd (trigger_dag_gcf (always ok_200)
         (post_request (flask.Json (PyDict ∅))) []) =
    [dag_run_call "YOUR-WEB-SERVER-URL" "gcs_dataflow_bigquery_official"
       (PyDict {[ "bucket" := PyStr "YOUR-BUCKET-NAME";
                  "file" := PyStr "INPUT-PATH-TO-FILE" ]})].
Proof.
  exact (proj2 (falsy_body_uses_defaults (always ok_200)
                  (post_request (flask.Json (PyDict ∅))) (PyDict ∅) []
                  eq_refl eq_refl eq_refl)).
Defined.

(** ** Further properties of the code *)

Lemma extractable_false_iff (j : pyobj) :
  extractable j = false <-> truthy j = true /\ forall d, j <> PyDict d.
Proof.
  split.
  - intros H. destruct j; cbn in H; try discriminate;
      (split; [by apply negb_false_iff in H | discriminate]).
  - intros [Htruthy Hobj]. destruct j; cbn in *;
      try (by rewrite Htruthy); try discriminate.
    by destruct (Hobj d).
Qed.

Lemma classify_returns_iff (r : requests.Response) :
  (exists t, classify (inr r) = inr t) <->
  requests.status_code r <> 403 /\ ~ 400 <= requests.status_code r < 600.
Proof.
  unfold classify.
  destruct (requests.status_code r =? 403) eqn:H403.
  { split; [intros [t Ht]; discriminate | intros [H _]; lia]. }
  destruct (requests.status_code r =? 200) eqn:H200.
  { split; [intros _; lia | eauto]. }
  destruct (Z_lt_dec (requests.status_code r) 400) as [Hlo | Hlo];
    [| destruct (Z_le_dec 600 (requests.status_code r)) as [Hhi | Hhi]].
  - rewrite raise_for_status_quiet by lia. split; [intros _; lia | eauto].
  - rewrite raise_for_status_quiet by lia. split; [intros _; lia | eauto].
  - rewrite raise_for_status_error by lia.
    split; [intros [t Ht]; discriminate | intros [_ H]; lia].
Qed.

(** X1: on a POST request whose JSON body parses to a truthy value that
    is not an object (a list, a string, a number, [true]) the handler
    issues no outbound call and returns, with 500, the error dictionary
    for the [AttributeError] that [.get] raises on such a value. *)
Theorem non_object_body_no_call net request j log :
  flask.method request = "POST" ->
  flask.body request = flask.Json j ->
  truthy j = true ->
  (forall d, j <> PyDict d) ->
  trigger_dag_gcf net request log =
    (inr (ViewTuple
            {[ "status" := PyStr "error";
               "message" :=
                 PyStr ("Failed to trigger DAG: '" +:+ type_name j
                        +:+ "' object has no attribute 'get'") ]}
            500),
     log).
Proof.
  intros Hm Hbody Htruthy Hobj.
  rewrite handler_run. unfold params_of.
  apply String.eqb_eq in Hm. rewrite Hm, Hbody.
  by rewrite (proj2 (extractable_false_iff j) (conj Htruthy Hobj)).
Qed.

Lemma non_object_body_no_call_witness :
  trigger_dag_gcf (always ok_200)
    (post_request (flask.Json (PyStr "b1"))) [] =
    (inr (ViewTuple
            {[ "status" := PyStr "error";
               "message" :=
                 PyStr "Failed to trigger DAG: 'str' object has no attribute 'get'" ]}
            500),
     []).
Proof.
  refine (non_object_body_no_call (always ok_200)
            (post_request (flask.Json (PyStr "b1"))) (PyStr "b1") []
            eq_refl eq_refl eq_refl _).
  discriminate.
Defined.

(** X2: whatever the request and the network, the handler issues at most
    one outbound call, and that call is a POST to the fixed URL of the
    DAG's runs whose keywords are exactly [json] and [timeout], with
    [timeout] 90: nothing in the request changes the target, the method
    or the timeout. *)
Theorem handler_at_most_one_call net request log :
  exists calls,
    snd (trigger_dag_gcf net request log) = log ++ calls /\
    (length calls <= 1)%nat /\
    forall c, c ∈ calls ->
      call_method c = "POST" /\
      call_url c =
        "YOUR-WEB-SERVER-URL/api/v1/dags/gcs_dataflow_bigquery_official/dagRuns" /\
      call_kwargs c !! "timeout" = Some (PyInt 90) /\
      dom (call_kwargs c) = ({[ "json"; "timeout" ]} : gset string).
Proof.
  rewrite handler_run. destruct (params_of request) as [e | params]; cbn.
  - exists []. split; [by rewrite app_nil_r |]. split; [cbn; lia |].
    intros c Hc. by apply not_elem_of_nil in Hc.
  - exists [handler_call params]. split; [reflexivity |].
    split; [cbn; lia |].
    intros c ->%list_elem_of_singleton.
    split; [reflexivity |]. split; [reflexivity |].
    split; [reflexivity |].
    cbn. rewrite dom_insert_L, dom_singleton_L. set_solver.
Qed.

(** X3: when the transport raises, [trigger_dag] lets the exception
    through unchanged after its single call, and the handler that made
    the call returns, with 500, the error dictionary carrying the text of
    that exception. *)
Theorem transport_error_propagates net (e : Exception) :
  (forall web_server_url dag_id data log,
     net (dag_run_call web_server_url dag_id data) = inl e ->
     trigger_dag net web_server_url dag_id data log =
       (inl e, log ++ [dag_run_call web_server_url dag_id data])) /\
  (forall request log c,
     snd (trigger_dag_gcf net request log) = log ++ [c] ->
     net c = inl e ->
     fst (trigger_dag_gcf net request log) =
       inr (ViewTuple
              {[ "status" := PyStr "error";
                 "message" := PyStr ("Failed to trigger DAG: " +:+ str e) ]}
              500)).
Proof.
  split.
  - intros web_server_url dag_id data log Hnet.
    rewrite trigger_dag_run, Hnet. reflexivity.
  - intros request log c Hlog Hnet.
    destruct (handler_after_call _ _ _ _ Hlog) as (params & _ & -> & Hview).
    rewrite Hview, Hnet. reflexivity.
Qed.

Lemma transport_error_propagates_witness :
  trigger_dag unreachable "YOUR-WEB-SERVER-URL"
    "gcs_dataflow_bigquery_official" (PyDict ∅) [] =
    (inl (OtherException "ConnectionError" "Connection refused"),
     [dag_run_call "YOUR-WEB-SERVER-URL" "gcs_dataflow_bigquery_official"
        (PyDict ∅)]) /\
  fst (trigger_dag_gcf unreachable (get_request []) []) =
    inr (ViewTuple
           {[ "status" := PyStr "error";
              "message" := PyStr "Failed to trigger DAG: Connection refused" ]}
           500).
Proof.
  split.
  - exact (proj1 (transport_error_propagates unreachable
                    (OtherException "ConnectionError" "Connection refused"))
             "YOUR-WEB-SERVER-URL" "gcs_dataflow_bigquery_official"
             (PyDict ∅) [] eq_refl).
  - exact (proj2 (transport_error_propagates unreachable
                    (OtherException "ConnectionError" "Connection refused"))
             (get_request []) []
             (handler_call (PyStr "YOUR-BUCKET-NAME",
                            PyStr "INPUT-PATH-TO-FILE"))
             eq_refl eq_refl).
Defined.

(** X4: the handler answers with status 200 exactly when it made its
    call and the answer received has a status that is neither 403 nor in
    400..599; in every other case it answers with 500. *)
Theorem handler_status_200_iff net request log :
  exists v,
    fst (trigger_dag_gcf net request log) = inr v /\
    (http_status v = 200 \/ http_status v = 500) /\
    (http_status v = 200 <->
     exists c r,
       snd (trigger_dag_gcf net request log) = log ++ [c] /\
       net c = inr r /\
       requests.status_code r <> 403 /\
       ~ 400 <= requests.status_code r < 600).
Proof.
  rewrite handler_run. destruct (params_of request) as [e | params]; cbn.
  - eexists. split; [reflexivity |]. split; [by right |].
    split; [discriminate |].
    intros (c & r & Hlog & _). by apply log_not_extended in Hlog.
  - destruct (net (handler_call params)) as [e | r] eqn:Hnet.
    + eexists. split; [reflexivity |]. cbn. split; [by right |].
      split; [discriminate |].
      intros (c & r & Hlog & Hc & _).
      apply log_extended_inv in Hlog as <-. congruence.
    + destruct (classify (inr r)) as [e | t] eqn:Hclass.
      * eexists. split; [reflexivity |]. cbn. split; [by right |].
        split; [discriminate |].
        intros (c & r' & Hlog & Hc & Hok).
        apply log_extended_inv in Hlog as <-.
        assert (r' = r) as -> by congruence.
        apply classify_returns_iff in Hok as [t Ht]. congruence.
      * eexists. split; [reflexivity |]. cbn. split; [by left |].
        split; [intros _ | reflexivity].
        exists (handler_call params), r.
        split; [reflexivity |]. split; [exact Hnet |].
        apply classify_returns_iff. eauto.
Qed.

Lemma handler_status_200_iff_witness :
  exists c r,
    snd (trigger_dag_gcf (always created_201) (get_request []) []) =
      [] ++ [c] /\
    always created_201 c = inr r /\
    requests.status_code r <> 403 /\
    ~ 400 <= requests.status_code r < 600.
Proof.
  destruct (handler_status_200_iff (always created_201) (get_request []) [])
    as (v & Hfst & _ & Hiff).
  apply Hiff. injection Hfst as <-. reflexivity.
Defined.

(** X5: a POST request is handled without looking at its query string,
    and a request that is not a POST without looking at its body. *)
Theorem post_ignores_query_get_ignores_body net request log :
  (flask.method request = "POST" ->
   forall args,
     trigger_dag_gcf net (with_args request args) log =
       trigger_dag_gcf net request log) /\
  (flask.method request <> "POST" ->
   forall b,
     trigger_dag_gcf net (with_body request b) log =
       trigger_dag_gcf net request log).
Proof.
  split.
  - intros Hm%String.eqb_eq args. rewrite !handler_run.
    unfold params_of, with_args. cbn. by rewrite Hm.
  - intros Hm%String.eqb_neq b. rewrite !handler_run.
    unfold params_of, with_body. cbn. by rewrite Hm.
Qed.

Lemma post_ignores_query_get_ignores_body_witness :
  trigger_dag_gcf (always ok_200)
    (with_args (post_request (flask.Json (PyDict {[ "file" := PyStr "f1" ]})))
       [("bucket", "b2"); ("file", "f2")]) [] =
    trigger_dag_gcf (always ok_200)
      (post_request (flask.Json (PyDict {[ "file" := PyStr "f1" ]}))) [] /\
  trigger_dag_gcf (always ok_200)
    (with_body (get_request [("bucket", "b1")])
       (flask.Json (PyDict {[ "bucket" := PyStr "b2" ]}))) [] =
    trigger_dag_gcf (always ok_200) (get_request [("bucket", "b1")]) [].
Proof.
  split.
  - exact (proj1 (post_ignores_query_get_ignores_body (always ok_200)
                    (post_request
                       (flask.Json (PyDict {[ "file" := PyStr "f1" ]}))) [])
             eq_refl [("bucket", "b2"); ("file", "f2")]).
  - refine (proj2 (post_ignores_query_get_ignores_body (always ok_200)
                     (get_request [("bucket", "b1")]) [])
              _ (flask.Json (PyDict {[ "bucket" := PyStr "b2" ]}))).
    discriminate.
Defined.

(** X6: [make_composer2_web_server_request] issues one call with the
    method and the URL it was given and hands back the answer of the
    network as it is, whatever its status; the keywords of the call are
    those of the caller, none changed, with [timeout] as the only key
    that may have been added. *)
Theorem request_helper_only_adds_timeout
    net url method (kwargs : gmap string pyobj) log :
  exists c,
    make_composer2_web_server_request net url method kwargs log =
      (net c, log ++ [c]) /\
    call_method c = method /\
    call_url c = url /\
    kwargs ⊆ call_kwargs c /\
    dom (call_kwargs c) = dom kwargs ∪ {[ "timeout" ]} /\
    forall k, k <> "timeout" -> call_kwargs c !! k = kwargs !! k.
Proof.
  rewrite request_run. eexists. split; [reflexivity |]. cbn.
  split; [reflexivity |]. split; [reflexivity |].
  destruct (kwargs !! "timeout") as [t |] eqn:Ht.
  - split; [reflexivity |]. split; [| reflexivity].
    apply elem_of_dom_2 in Ht. apply set_eq. intros k.
    rewrite elem_of_union, elem_of_singleton.
    split; [by left | by intros [Hk | ->]].
  - split; [by apply insert_subseteq |].
    split; [rewrite dom_insert_L; apply union_comm_L |].
    intros k Hk. by rewrite lookup_insert_ne.
Qed.

(** X7: the outcome of [trigger_dag] is decided by the status of the
    answer alone: it returns a string, the body text, exactly for 200;
    it raises exactly for 403 and for 400..599; for every other status,
    below 200 and from 600 on included, it returns [None]. *)
Theorem trigger_dag_outcome
    net web_server_url dag_id data log (r : requests.Response) :
  net (dag_run_call web_server_url dag_id data) = inr r ->
  let out := fst (trigger_dag net web_server_url dag_id data log) in
  (forall s, out = inr (PyStr s) <->
             requests.status_code r = 200 /\ s = requests.text r) /\
  ((exists e, out = inl e) <->
   requests.status_code r = 403 \/ 400 <= requests.status_code r < 600) /\
  (out = inr PyNone <->
   requests.status_code r <> 200 /\ requests.status_code r <> 403 /\
   ~ 400 <= requests.status_code r < 600).
Proof.
  intros Hnet out.
  assert (Hout : out = classify (inr r)).
  { unfold out. rewrite trigger_dag_run. cbn [fst]. by rewrite Hnet. }
  rewrite Hout. clear out Hout Hnet.
  pose proof (classify_returns_iff r) as Hret. revert Hret.
  unfold classify.
  destruct (requests.status_code r =? 403) eqn:H403.
  { intros _. split; [| split].
    - intros s. split; [discriminate | intros [? _]; lia].
    - split; [intros _; lia | eauto].
    - split; [discriminate | intros (_ & ? & _); lia]. }
  destruct (requests.status_code r =? 200) eqn:H200.
  { intros _. split; [| split].
    - intros s. split; [intros [= <-]; split; [lia | reflexivity] |
                        by intros [_ ->]].
    - split; [intros [e He]; discriminate | lia].
    - split; [discriminate | intros (? & _); lia]. }
  destruct (requests.raise_for_status r) as [e | []].
  - intros Hret. split; [| split].
    + intros s. split; [discriminate | intros [? _]; lia].
    + split; [intros _ | eauto].
      destruct (Z_lt_dec (requests.status_code r) 400);
        [| destruct (Z_le_dec 600 (requests.status_code r))]; try lia;
        exfalso;
        (assert (Hno : exists t : pyobj, inl e = inr t)
           by (apply Hret; lia));
        destruct Hno; discriminate.
    + split; [discriminate |].
      intros (_ & _ & Hout).
      assert (Hno : exists t : pyobj, inl e = inr t) by (apply Hret; lia).
      destruct Hno; discriminate.
  - intros Hret.
    assert (Hok : requests.status_code r <> 403 /\
                  ~ 400 <= requests.status_code r < 600)
      by (apply Hret; eauto).
    split; [| split].
    + intros s. split; [discriminate | intros [? _]; lia].
    + split; [intros [e He]; discriminate | lia].
    + split; [intros _; lia | reflexivity].
Qed.

Lemma trigger_dag_outcome_witness :
  fst (trigger_dag (always (response_of 102 "PROCESSING" EmptyString))
         "YOUR-WEB-SERVER-URL" "gcs_dataflow_bigquery_official"
         (PyDict ∅) []) = inr PyNone.
Proof.
  apply (trigger_dag_outcome
           (always (response_of 102 "PROCESSING" EmptyString))
           "YOUR-WEB-SERVER-URL" "gcs_dataflow_bigquery_official"
           (PyDict ∅) [] (response_of 102 "PROCESSING" EmptyString) eq_refl).
  cbn. lia.
Defined.

(** X8: of a JSON object sent by POST only the fields [bucket] and
    [file] are read: two POST requests whose objects agree on these two
    fields are handled alike, whatever else the objects hold, and an
    object with neither field is handled like an empty body. *)
Theorem only_bucket_and_file_matter
    net request request' (d d' : gmap string pyobj) log :
  flask.method request = "POST" ->
  flask.method request' = "POST" ->
  flask.body request = flask.Json (PyDict d) ->
  flask.body request' = flask.Json (PyDict d') ->
  d !! "bucket" = d' !! "bucket" ->
  d !! "file" = d' !! "file" ->
  trigger_dag_gcf net request log = trigger_dag_gcf net request' log.
Proof.
  intros Hm%String.eqb_eq Hm'%String.eqb_eq Hd Hd' Hbucket Hfile.
  rewrite !handler_run. unfold params_of.
  rewrite Hm, Hm', Hd, Hd'. cbn. by rewrite Hbucket, Hfile.
Qed.

Lemma only_bucket_and_file_matter_witness :
  trigger_dag_gcf (always ok_200)
    (post_request (flask.Json (PyDict {[ "bucket" := PyStr "b1";
                                         "dag_id" := PyStr "other";
                                         "retries" := PyInt 3 ]}))) [] =
    trigger_dag_gcf (always ok_200)
      (post_request (flask.Json (PyDict {[ "bucket" := PyStr "b1" ]}))) [] /\
  trigger_dag_gcf (always ok_200)
    (post_request (flask.Json (PyDict {[ "dag_id" := PyStr "other" ]}))) [] =
    trigger_dag_gcf (always ok_200)
      (post_request (flask.Json (PyDict ∅))) [].
Proof.
  split.
  - exact (only_bucket_and_file_matter (always ok_200)
             (post_request
                (flask.Json (PyDict {[ "bucket" := PyStr "b1";
                                       "dag_id" := PyStr "other";
                                       "retries" := PyInt 3 ]})))
             (post_request (flask.Json (PyDict {[ "bucket" := PyStr "b1" ]})))
             {[ "bucket" := PyStr "b1"; "dag_id" := PyStr "other";
                "retries" := PyInt 3 ]}
             {[ "bucket" := PyStr "b1" ]} []
             eq_refl eq_refl eq_refl eq_refl eq_refl eq_refl).
  - exact (only_bucket_and_file_matter (always ok_200)
             (post_request (flask.Json (PyDict {[ "dag_id" := PyStr "other" ]})))
             (post_request (flask.Json (PyDict ∅)))
             {[ "dag_id" := PyStr "other" ]} ∅ []
             eq_refl eq_refl eq_refl eq_refl eq_refl eq_refl).
Defined.

(** X9: when the answer to the handler's call has a status in 400..599
    other than 403, the handler returns, with 500, the error dictionary
    whose message is [Failed to trigger DAG: ] followed by the text of
    the error of [raise_for_status]: the status code, [Client Error] or
    [Server Error], the reason phrase and the URL of the answer. *)
Theorem handler_reports_http_error net request log c
    (r : requests.Response) :
  snd (trigger_dag_gcf net request log) = log ++ [c] ->
  net c = inr r ->
  400 <= requests.status_code r < 600 ->
  requests.status_code r <> 403 ->
  fst (trigger_dag_gcf net request log) =
    inr (ViewTuple
           {[ "status" := PyStr "error";
              "message" :=
                PyStr ("Failed to trigger DAG: "
                       +:+ pretty (requests.status_code r)
                       +:+ (if requests.status_code r <? 500
                            then " Client Error: " else " Server Error: ")
                       +:+ requests.reason r +:+ " for url: "
                       +:+ requests.url r) ]}
           500).
Proof.
  intros Hlog Hnet Hrange H403.
  destruct (handler_after_call _ _ _ _ Hlog) as (params & _ & -> & Hview).
  rewrite Hview, Hnet. unfold classify.
  assert ((requests.status_code r =? 403) = false) as -> by lia.
  assert ((requests.status_code r =? 200) = false) as -> by lia.
  by rewrite raise_for_status_error.
Qed.

Lemma handler_reports_http_error_witness :
  fst (trigger_dag_gcf
         (always (response_of 500 "INTERNAL SERVER ERROR" EmptyString))
         (get_request []) []) =
    inr (ViewTuple
           {[ "status" := PyStr "error";
              "message" :=
                PyStr ("Failed to trigger DAG: 500 Server Error: INTERNAL SERVER ERROR for url: "
                       +:+ dag_runs_url) ]}
           500).
Proof.
  apply (handler_reports_http_error
           (always (response_of 500 "INTERNAL SERVER ERROR" EmptyString))
           (get_request []) []
           (handler_call (PyStr "YOUR-BUCKET-NAME", PyStr "INPUT-PATH-TO-FILE"))
           (response_of 500 "INTERNAL SERVER ERROR" EmptyString)
           eq_refl eq_refl).
  - cbn. lia.
  - cbn. lia.
Defined.

(** X10: every result of the handler has one of two shapes: the pair of
    500 and a dictionary with exactly [status], equal to [error], and a
    [message] that starts with [Failed to trigger DAG: ]; or a bare
    dictionary with [status] equal to [success], the fixed message and
    DAG identifier, a [dag_conf] with exactly [bucket] and [file], and a
    [response] that is a string or [None]. *)
Theorem handler_response_shape net request log :
  exists v,
    fst (trigger_dag_gcf net request log) = inr v /\
    ((exists text,
        v = ViewTuple
              {[ "status" := PyStr "error";
                 "message" := PyStr ("Failed to trigger DAG: " +:+ text) ]}
              500) \/
     (exists bucket file_path response_text,
        v = ViewDict
              {[ "status" := PyStr "success";
                 "message" := PyStr "DAG triggered successfully";
                 "dag_id" := PyStr "gcs_dataflow_bigquery_official";
                 "dag_conf" := PyDict {[ "bucket" := bucket;
                                         "file" := file_path ]};
                 "response" := response_text ]} /\
        (response_text = PyNone \/ exists s, response_text = PyStr s))).
Proof.
  rewrite handler_run. destruct (params_of request) as [e | params]; cbn.
  - eexists. split; [reflexivity |]. left. by exists (str e).
  - destruct (net (handler_call params)) as [e | r]; cbn.
    + eexists. split; [reflexivity |]. left. by exists (str e).
    + destruct (requests.status_code r =? 403).
      { eexists. split; [reflexivity |]. left. by eexists. }
      destruct (requests.status_code r =? 200).
      { eexists. split; [reflexivity |]. right.
        exists (fst params), (snd params), (PyStr (requests.text r)).
        split; [reflexivity |]. right. by eexists. }
      destruct (requests.raise_for_status r) as [e | []].
      * eexists. split; [reflexivity |]. left. by exists (str e).
      * eexists. split; [reflexivity |]. right.
        exists (fst params), (snd params), PyNone.
        split; [reflexivity |]. by left.
Qed.

(** X11: the base URL and the path are joined by a slash without any
    normalisation: for a base URL that ends in a slash the requested URL
    has two slashes before [api]. *)
Theorem trailing_slash_is_kept net web_server_url dag_id data log :
  exists c,
    snd (trigger_dag net (web_server_url +:+ "/") dag_id data log) =
      log ++ [c] /\
    call_url c = web_server_url +:+ "//api/v1/dags/" +:+ dag_id +:+ "/dagRuns".
Proof.
  rewrite trigger_dag_run. eexists. split; [reflexivity |].
  cbn [call_url dag_run_call].
  induction web_server_url as [| a s IH]; [reflexivity |].
  change (String a ((s +:+ "/") +:+ "/" +:+ "api/v1/dags/" +:+ dag_id
                    +:+ "/dagRuns") =
          String a (s +:+ "//api/v1/dags/" +:+ dag_id +:+ "/dagRuns")).
  by rewrite IH.
Qed.
